(** * Request validation gates for Next.js API routes

    A shallow embedding of the zod request-validation middleware:
    [src/src/index.ts] (the three-section gate built on [nextjs-api-utils])
    and [src/unnamed/part_000] (the earlier two-section gate built on
    [next-connect]).

    A step is a function [(req, res, next) => void].  It is embedded as a
    state-passing computation over a [World] that holds the shared, mutable
    request object and the ordered log of the calls the step makes to its
    collaborators: the schema engine ([safeParse]), the response writer and the
    continuation [next]. *)

From stdpp Require Import gmap strings list fin_maps pretty.
From Stdlib Require Import ZArith.

Open Scope Z_scope.

(** ** JavaScript values *)

(** The sections of a request are arbitrary JSON-like values.  Numbers are
    restricted to integers; an object is a finite map from property names to
    values, compared extensionally (property order is not observed). *)
#[warnings="-register-all"] Inductive value : Type :=
  | VUndefined
  | VNull
  | VBool (b : bool)
  | VNum (n : Z)
  | VStr (s : string)
  | VArr (l : list value)
  | VObj (m : gmap string value).

(** Properties ["0"], ["1"], ... of an array-like value. *)
Definition index_props (l : list value) : gmap string value :=
  list_to_map (imap (fun (i : nat) x => (pretty i, x)) l).

(** The own enumerable properties that an object spread [...v] copies:
    the entries of an object, the indexed elements of an array, the indexed
    characters of a string, and nothing for the other primitives. *)
Definition own_props (v : value) : gmap string value :=
  match v with
  | VObj m => m
  | VArr l => index_props l
  | VStr s =>
      index_props ((fun c => VStr (String c EmptyString)) <$> String.list_ascii_of_string s)
  | _ => ∅
  end.

(** [{ ...a, ...b }]: the properties of [b] win on a key collision. *)
Definition spread (a b : value) : value := VObj (own_props b ∪ own_props a).

(** ** The schema engine (zod), as the gate sees it *)

Record ZodIssue := { path : list (string + nat); message : string }.

Record ZodError := { issues : list ZodIssue }.

(** The result of [schema.safeParse(v)]:
    [{ success: true, data }] or [{ success: false, error }]. *)
Inductive SafeParseReturnType : Type :=
  | SafeParseSuccess (data : value)
  | SafeParseError (error : ZodError).

(** A schema is used only through [safeParse], taken to be a deterministic
    function of the value it is given. *)
Record ZodSchema := { safeParse : value → SafeParseReturnType }.

Definition success (parsed : SafeParseReturnType) : bool :=
  match parsed with
  | SafeParseSuccess _ => true
  | SafeParseError _ => false
  end.

(** ** Requests, responses and the effect log *)

(** ['Query' | 'Params' | 'Body'] *)
Inductive SectionLabel : Type := Query | Params | Body.

(** [type ErrorListItem = { type: ...; errors: ZodError<any> }] *)
Record ErrorListItem := { type : SectionLabel; errors : ZodError }.

(** [(error) => ({ type: error.type, errors: error.errors })] *)
Definition copy_item (error : ErrorListItem) : ErrorListItem :=
  {| type := type error; errors := errors error |}.

(** The three mutable sections of the request object. *)
Record NextApiRequest := { params : value; query : value; body : value }.

(** The JSON payload of the failure response. *)
Record ErrorEnvelope :=
  { env_success : bool; env_errorCode : string; env_meta : list ErrorListItem }.

Inductive Event : Type :=
  | SafeParseCalled (schema : ZodSchema) (input : value)
  | ResponseWritten (statusCode : Z) (payload : ErrorEnvelope)
  | NextCalled.

Record World := { request : NextApiRequest; trace : list Event }.

(** ** The handler monad *)

Definition Handler (A : Type) : Type := World → A * World.

#[global] Instance Handler_ret : MRet Handler := λ A (a : A) w, (a, w).

#[global] Instance Handler_bind : MBind Handler :=
  λ A B (k : A → Handler B) (c : Handler A) w, let '(a, w') := c w in k a w'.

Notation "c1 ;; c2" := (mbind (λ _ : unit, c2) c1)
  (at level 100, c2 at level 200, right associativity) : stdpp_scope.

(** [req.section] *)
Definition read (section : NextApiRequest → value) : Handler value :=
  λ w, (section (request w), w).

(** [req.query = v] *)
Definition assign_query (v : value) : Handler unit :=
  λ w, (tt, {| request := {| params := params (request w); query := v;
                              body := body (request w) |};
               trace := trace w |}).

(** [req.body = v] *)
Definition assign_body (v : value) : Handler unit :=
  λ w, (tt, {| request := {| params := params (request w);
                              query := query (request w); body := v |};
               trace := trace w |}).

Definition emit (e : Event) : Handler unit :=
  λ w, (tt, {| request := request w; trace := trace w ++ [e] |}).

(** [schema.safeParse(input)] *)
Definition call_safeParse (schema : ZodSchema) (input : value)
  : Handler SafeParseReturnType :=
  emit (SafeParseCalled schema input);; mret (safeParse schema input).

(** [next()] *)
Definition next : Handler unit := emit NextCalled.

(** [res.status(statusCode).json(payload)] *)
Definition res_status_json (statusCode : Z) (payload : ErrorEnvelope) : Handler unit :=
  emit (ResponseWritten statusCode payload).

(** [errors.push(item)] on the step's local array. *)
Definition push (errors : list ErrorListItem) (item : ErrorListItem)
  : list ErrorListItem := errors ++ [item].

Definition Step : Type := Handler unit.

(** One invocation of a step on a request, with a fresh response and log. *)
Definition run (step : Step) (req : NextApiRequest) : NextApiRequest * list Event :=
  let w := snd (step {| request := req; trace := [] |}) in (request w, trace w).

(** ** [src/unnamed/part_000]: the two-section gate on next-connect *)

Module NextConnect.

Module RequestValidation.
(** [{ query?: ZodSchema<TQuery>; body?: ZodSchema<TBody> }] *)
Record t := { query : option ZodSchema; body : option ZodSchema }.
End RequestValidation.

Definition sendErrors (errors : list ErrorListItem) : Handler unit :=
  res_status_json 400
    {| env_success := false;
       env_errorCode := "bad_request";
       env_meta := copy_item <$> errors |}.

Definition processRequestBody (effectsSchema : ZodSchema) : Step :=
  b ← read body;
  parsed ← call_safeParse effectsSchema b;
  match parsed with
  | SafeParseSuccess data => assign_body data;; next
  | SafeParseError error => sendErrors [ {| type := Body; errors := error |} ]
  end.

Definition processRequestQuery (effectsSchema : ZodSchema) : Step :=
  q ← read query;
  parsed ← call_safeParse effectsSchema q;
  match parsed with
  | SafeParseSuccess data =>
      q ← read query;
      assign_query (spread q data);; next
  | SafeParseError error => sendErrors [ {| type := Query; errors := error |} ]
  end.

Definition processRequest (schemas : RequestValidation.t) : Step :=
  let errors : list ErrorListItem := [] in
  errors ←
    match RequestValidation.query schemas with
    | Some schema =>
        q ← read query;
        parsed ← call_safeParse schema q;
        match parsed with
        | SafeParseSuccess data =>
            q ← read query;
            assign_query (spread q data);; mret errors
        | SafeParseError error => mret (push errors {| type := Query; errors := error |})
        end
    | None => mret errors
    end;
  errors ←
    match RequestValidation.body schemas with
    | Some schema =>
        b ← read body;
        parsed ← call_safeParse schema b;
        match parsed with
        | SafeParseSuccess data => assign_body data;; mret errors
        | SafeParseError error => mret (push errors {| type := Body; errors := error |})
        end
    | None => mret errors
    end;
  if (0 <? length errors)%nat then sendErrors errors else next.

Definition validateRequestBody (schema : ZodSchema) : Step :=
  b ← read body;
  parsed ← call_safeParse schema b;
  match parsed with
  | SafeParseSuccess _ => next
  | SafeParseError error => sendErrors [ {| type := Body; errors := error |} ]
  end.

Definition validateRequestQuery (schema : ZodSchema) : Step :=
  q ← read query;
  parsed ← call_safeParse schema q;
  match parsed with
  | SafeParseSuccess _ => next
  | SafeParseError error => sendErrors [ {| type := Query; errors := error |} ]
  end.

(** The destructured [{ query, body }] are the fields of [schemas]. *)
Definition validateRequest (schemas : RequestValidation.t) : Step :=
  let errors : list ErrorListItem := [] in
  errors ←
    match RequestValidation.query schemas with
    | Some schema =>
        q ← read query;
        parsed ← call_safeParse schema q;
        match parsed with
        | SafeParseSuccess _ => mret errors
        | SafeParseError error => mret (push errors {| type := Query; errors := error |})
        end
    | None => mret errors
    end;
  errors ←
    match RequestValidation.body schemas with
    | Some schema =>
        b ← read body;
        parsed ← call_safeParse schema b;
        match parsed with
        | SafeParseSuccess _ => mret errors
        | SafeParseError error => mret (push errors {| type := Body; errors := error |})
        end
    | None => mret errors
    end;
  if (0 <? length errors)%nat then sendErrors errors else next.

End NextConnect.

(** ** [src/src/index.ts]: the three-section gate on nextjs-api-utils *)

Module ErrorCodes.
(** Modelled from the spec: the constant [ErrorCodes.BAD_REQUEST] of the
    imported package [nextjs-api-utils], whose text is not part of the
    sources; the failure payload carries ["bad_request"] as its error code. *)
Definition BAD_REQUEST : string := "bad_request".
End ErrorCodes.

(** Modelled from the spec: [answer] of the imported package
    [nextjs-api-utils], whose text is not part of the sources.  Given the
    options object [{ statusCode, data, errorCode, meta }] it terminates the
    response with the given status and the JSON payload
    [{ success: false, errorCode, meta }]; it neither touches the request nor
    calls the continuation. *)
Definition answer (statusCode : Z) (data : value) (errorCode : string)
    (meta : list ErrorListItem) : Handler unit :=
  res_status_json statusCode
    {| env_success := false; env_errorCode := errorCode; env_meta := meta |}.

Module Index.

Module RequestValidation.
(** [{ params?: ZodSchema<TParams>; query?: ...; body?: ... }];
    [RequestProcessing] has the same fields and, [ZodEffects] being a
    [ZodSchema], the same values. *)
Record t :=
  { params : option ZodSchema; query : option ZodSchema; body : option ZodSchema }.
End RequestValidation.

Definition sendErrors (errors : list ErrorListItem) : Handler unit :=
  answer 400 VNull ErrorCodes.BAD_REQUEST (copy_item <$> errors).

Definition processRequestBody (effectsSchema : ZodSchema) : Step :=
  b ← read body;
  parsed ← call_safeParse effectsSchema b;
  match parsed with
  | SafeParseSuccess data => assign_body data;; next
  | SafeParseError error => sendErrors [ {| type := Body; errors := error |} ]
  end.

Definition processRequestParams (effectsSchema : ZodSchema) : Step :=
  q ← read query;
  parsed ← call_safeParse effectsSchema q;
  match parsed with
  | SafeParseSuccess data =>
      q ← read query;
      assign_query (spread q data);; next
  | SafeParseError error => sendErrors [ {| type := Params; errors := error |} ]
  end.

Definition processRequestQuery (effectsSchema : ZodSchema) : Step :=
  q ← read query;
  parsed ← call_safeParse effectsSchema q;
  match parsed with
  | SafeParseSuccess data =>
      q ← read query;
      assign_query (spread q data);; next
  | SafeParseError error => sendErrors [ {| type := Query; errors := error |} ]
  end.

Definition processRequest (schemas : RequestValidation.t) : Step :=
  let errors : list ErrorListItem := [] in
  errors ←
    match RequestValidation.params schemas with
    | Some schema =>
        p ← read params;
        parsed ← call_safeParse schema p;
        match parsed with
        | SafeParseSuccess data =>
            q ← read query;
            assign_query (spread q data);; mret errors
        | SafeParseError error => mret (push errors {| type := Params; errors := error |})
        end
    | None => mret errors
    end;
  errors ←
    match RequestValidation.query schemas with
    | Some schema =>
        q ← read query;
        parsed ← call_safeParse schema q;
        match parsed with
        | SafeParseSuccess data =>
            q ← read query;
            assign_query (spread q data);; mret errors
        | SafeParseError error => mret (push errors {| type := Query; errors := error |})
        end
    | None => mret errors
    end;
  errors ←
    match RequestValidation.body schemas with
    | Some schema =>
        b ← read body;
        parsed ← call_safeParse schema b;
        match parsed with
        | SafeParseSuccess data => assign_body data;; mret errors
        | SafeParseError error => mret (push errors {| type := Body; errors := error |})
        end
    | None => mret errors
    end;
  if (0 <? length errors)%nat then sendErrors errors else next.

Definition validateRequestBody (schema : ZodSchema) : Step :=
  b ← read body;
  parsed ← call_safeParse schema b;
  match parsed with
  | SafeParseSuccess _ => next
  | SafeParseError error => sendErrors [ {| type := Body; errors := error |} ]
  end.

Definition validateRequestParams (schema : ZodSchema) : Step :=
  p ← read params;
  parsed ← call_safeParse schema p;
  match parsed with
  | SafeParseSuccess _ => next
  | SafeParseError error => sendErrors [ {| type := Params; errors := error |} ]
  end.

Definition validateRequestQuery (schema : ZodSchema) : Step :=
  q ← read query;
  parsed ← call_safeParse schema q;
  match parsed with
  | SafeParseSuccess _ => next
  | SafeParseError error => sendErrors [ {| type := Query; errors := error |} ]
  end.

(** The destructured [{ params, query, body }] are the fields of [schemas]. *)
Definition validateRequest (schemas : RequestValidation.t) : Step :=
  let errors : list ErrorListItem := [] in
  errors ←
    match RequestValidation.params schemas with
    | Some schema =>
        p ← read params;
        parsed ← call_safeParse schema p;
        match parsed with
        | SafeParseSuccess _ => mret errors
        | SafeParseError error => mret (push errors {| type := Params; errors := error |})
        end
    | None => mret errors
    end;
  errors ←
    match RequestValidation.query schemas with
    | Some schema =>
        q ← read query;
        parsed ← call_safeParse schema q;
        match parsed with
        | SafeParseSuccess _ => mret errors
        | SafeParseError error => mret (push errors {| type := Query; errors := error |})
        end
    | None => mret errors
    end;
  errors ←
    match RequestValidation.body schemas with
    | Some schema =>
        b ← read body;
        parsed ← call_safeParse schema b;
        match parsed with
        | SafeParseSuccess _ => mret errors
        | SafeParseError error => mret (push errors {| type := Body; errors := error |})
        end
    | None => mret errors
    end;
  if (0 <? length errors)%nat then sendErrors errors else next.

End Index.

(** ** Observations on an invocation *)

(** The responses written, in order. *)
Definition responses (tr : list Event) : list (Z * ErrorEnvelope) :=
  omap (λ e, match e with
             | ResponseWritten statusCode payload => Some (statusCode, payload)
             | _ => None
             end) tr.

(** How many times the continuation was invoked. *)
Fixpoint next_calls (tr : list Event) : nat :=
  match tr with
  | [] => 0
  | NextCalled :: tr => S (next_calls tr)
  | _ :: tr => next_calls tr
  end.

(** Whether some schema invoked during the run rejected the input it was
    given. *)
Definition rejected (tr : list Event) : bool :=
  existsb (λ e, match e with
                | SafeParseCalled schema input => negb (success (safeParse schema input))
                | _ => false
                end) tr.

(** The failure payload [{ success: false, errorCode: "bad_request", meta }]. *)
Definition bad_request (meta : list ErrorListItem) : ErrorEnvelope :=
  {| env_success := false; env_errorCode := "bad_request"; env_meta := meta |}.

(** The call made to an optional schema: none when the section is not
    configured. *)
Definition evaluated (schema : option ZodSchema) (input : value) : list Event :=
  match schema with
  | Some s => [SafeParseCalled s input]
  | None => []
  end.

(** The entry an optional schema contributes to [meta]: one when it is
    configured and rejects [input], none otherwise. *)
Definition violation (label : SectionLabel) (schema : option ZodSchema) (input : value)
  : list ErrorListItem :=
  match schema with
  | Some s =>
      match safeParse s input with
      | SafeParseError error => [ {| type := label; errors := error |} ]
      | SafeParseSuccess _ => []
      end
  | None => []
  end.

(** The decision taken on the collected violations. *)
Definition decision (meta : list ErrorListItem) : Event :=
  match meta with
  | [] => NextCalled
  | _ :: _ => ResponseWritten 400 (bad_request meta)
  end.

(** A section after an optional schema had its turn on [input]: overlaid with
    the coerced output when the schema is configured and accepts. *)
Definition overlaid (schema : option ZodSchema) (input section : value) : value :=
  match schema with
  | Some s =>
      match safeParse s input with
      | SafeParseSuccess data => spread section data
      | SafeParseError _ => section
      end
  | None => section
  end.

(** A section after an optional schema had its turn on it: replaced by the
    coerced output when the schema is configured and accepts. *)
Definition replaced (schema : option ZodSchema) (section : value) : value :=
  match schema with
  | Some s =>
      match safeParse s section with
      | SafeParseSuccess data => data
      | SafeParseError _ => section
      end
  | None => section
  end.

(** Whether an optional schema is configured and accepts [input]. *)
Definition accepts (schema : option ZodSchema) (input : value) : bool :=
  match schema with
  | Some s => success (safeParse s input)
  | None => false
  end.

(** The outcome of a step that runs [schema] on [input], overlays the coerced
    output onto the query section and advances, or reports the failure under
    [label] and leaves the request as it was. *)
Definition query_overlay_outcome (label : SectionLabel) (schema : ZodSchema)
    (input : value) (req : NextApiRequest) : NextApiRequest * list Event :=
  match safeParse schema input with
  | SafeParseSuccess data =>
      ({| params := params req; query := spread (query req) data; body := body req |},
       [SafeParseCalled schema input; NextCalled])
  | SafeParseError error =>
      (req, [SafeParseCalled schema input;
             ResponseWritten 400 (bad_request [ {| type := label; errors := error |} ])])
  end.

(** The params processing step as the specification words it: the schema is
    run on the params section and its coerced output is overlaid onto the
    params section. *)
Definition params_overlay_outcome (schema : ZodSchema) (req : NextApiRequest)
  : NextApiRequest * list Event :=
  match safeParse schema (params req) with
  | SafeParseSuccess data =>
      ({| params := spread (params req) data; query := query req; body := body req |},
       [SafeParseCalled schema (params req); NextCalled])
  | SafeParseError error =>
      (req, [SafeParseCalled schema (params req);
             ResponseWritten 400 (bad_request [ {| type := Params; errors := error |} ])])
  end.

(** The aggregate processing step as the specification words it: every
    section is updated from its own schema only. *)
Definition sectionwise_request (schemas : Index.RequestValidation.t) (req : NextApiRequest)
  : NextApiRequest :=
  {| params := overlaid (Index.RequestValidation.params schemas) (params req) (params req);
     query := overlaid (Index.RequestValidation.query schemas) (query req) (query req);
     body := replaced (Index.RequestValidation.body schemas) (body req) |}.

(** [req.params] set to [v], the rest as in [req]. *)
Definition with_params (v : value) (req : NextApiRequest) : NextApiRequest :=
  {| params := v; query := query req; body := body req |}.

(** The outcome of a validation-only step for one section: the request is
    returned as it was. *)
Definition validation_outcome (label : SectionLabel) (section : NextApiRequest → value)
    (schema : ZodSchema) (req : NextApiRequest) : NextApiRequest * list Event :=
  (req, [SafeParseCalled schema (section req);
         match safeParse schema (section req) with
         | SafeParseSuccess _ => NextCalled
         | SafeParseError error =>
             ResponseWritten 400 (bad_request [ {| type := label; errors := error |} ])
         end]).

(** Running a step a second time, on the request as the first run left it,
    advances again, writes nothing and changes nothing. *)
Definition advances_idempotently (step : Step) (req : NextApiRequest) : Prop :=
  let first := run step req in
  let second := run step first.1 in
  responses first.2 = []
  ∧ next_calls first.2 = 1%nat
  ∧ second.2 = first.2
  ∧ second.1 = first.1.

(** The log of an aggregate gate that made the schema calls [parses] and
    collected the violations [meta]: the calls in order, then the decision;
    one response carrying [meta] and no advance when [meta] is not empty, no
    response and one advance when it is. *)
Definition aggregate_outcome (tr parses : list Event) (meta : list ErrorListItem) : Prop :=
  tr = parses ++ [decision meta]
  ∧ responses tr = match meta with [] => [] | _ :: _ => [(400, bad_request meta)] end
  ∧ next_calls tr = match meta with [] => 1%nat | _ :: _ => 0%nat end.

(** Every step factory exported by the two files. *)
Inductive EntryPoint : Type :=
  | NextConnect_processRequestBody (schema : ZodSchema)
  | NextConnect_processRequestQuery (schema : ZodSchema)
  | NextConnect_processRequest (schemas : NextConnect.RequestValidation.t)
  | NextConnect_validateRequestBody (schema : ZodSchema)
  | NextConnect_validateRequestQuery (schema : ZodSchema)
  | NextConnect_validateRequest (schemas : NextConnect.RequestValidation.t)
  | Index_processRequestBody (schema : ZodSchema)
  | Index_processRequestParams (schema : ZodSchema)
  | Index_processRequestQuery (schema : ZodSchema)
  | Index_processRequest (schemas : Index.RequestValidation.t)
  | Index_validateRequestBody (schema : ZodSchema)
  | Index_validateRequestParams (schema : ZodSchema)
  | Index_validateRequestQuery (schema : ZodSchema)
  | Index_validateRequest (schemas : Index.RequestValidation.t).

(** The validation-only steps for a single section, with their schema, the
    section they validate and the label they report under. *)
Definition validation_only (entry : EntryPoint)
  : option (ZodSchema * (NextApiRequest → value) * SectionLabel) :=
  match entry with
  | NextConnect_validateRequestBody schema => Some (schema, body, Body)
  | NextConnect_validateRequestQuery schema => Some (schema, query, Query)
  | Index_validateRequestBody schema => Some (schema, body, Body)
  | Index_validateRequestParams schema => Some (schema, params, Params)
  | Index_validateRequestQuery schema => Some (schema, query, Query)
  | _ => None
  end.

Definition step_of (entry : EntryPoint) : Step :=
  match entry with
  | NextConnect_processRequestBody schema => NextConnect.processRequestBody schema
  | NextConnect_processRequestQuery schema => NextConnect.processRequestQuery schema
  | NextConnect_processRequest schemas => NextConnect.processRequest schemas
  | NextConnect_validateRequestBody schema => NextConnect.validateRequestBody schema
  | NextConnect_validateRequestQuery schema => NextConnect.validateRequestQuery schema
  | NextConnect_validateRequest schemas => NextConnect.validateRequest schemas
  | Index_processRequestBody schema => Index.processRequestBody schema
  | Index_processRequestParams schema => Index.processRequestParams schema
  | Index_processRequestQuery schema => Index.processRequestQuery schema
  | Index_processRequest schemas => Index.processRequest schemas
  | Index_validateRequestBody schema => Index.validateRequestBody schema
  | Index_validateRequestParams schema => Index.validateRequestParams schema
  | Index_validateRequestQuery schema => Index.validateRequestQuery schema
  | Index_validateRequest schemas => Index.validateRequest schemas
  end.

(** ** Sample schemas and requests *)

Module Samples.

(** An object literal. *)
Definition obj (entries : list (string * value)) : value := VObj (list_to_map entries).

(** [v[key]] *)
Definition prop (key : string) (v : value) : option value := own_props v !! key.

Definition issue (key message : string) : ZodError :=
  {| issues := [ {| path := [inl key]; message := message |} ] |}.

(** [z.any().transform(() => data)]: accepts every input. *)
Definition constant (data : value) : ZodSchema :=
  {| safeParse := λ _, SafeParseSuccess data |}.

(** [z.object({ name: z.string() })]: unknown keys are stripped. *)
Definition name_schema : ZodSchema :=
  {| safeParse := λ v,
       match v with
       | VObj m =>
           match m !! "name"%string with
           | Some (VStr name) => SafeParseSuccess (obj [("name"%string, VStr name)])
           | Some _ => SafeParseError (issue "name" "Expected string")
           | None => SafeParseError (issue "name" "Required")
           end
       | _ => SafeParseError {| issues := [ {| path := []; message := "Expected object" |} ] |}
       end |}.

(** [z.object({ id: z.literal("7").transform(Number) })] *)
Definition id_schema : ZodSchema :=
  {| safeParse := λ v,
       match v with
       | VObj m =>
           match m !! "id"%string with
           | Some (VStr id) =>
               if String.eqb id "7"
               then SafeParseSuccess (obj [("id"%string, VNum 7)])
               else SafeParseError (issue "id" "Invalid literal value")
           | Some _ => SafeParseError (issue "id" "Invalid literal value")
           | None => SafeParseError (issue "id" "Required")
           end
       | _ => SafeParseError {| issues := [ {| path := []; message := "Expected object" |} ] |}
       end |}.

(** [z.object({ id: z.number() })] *)
Definition number_id_schema : ZodSchema :=
  {| safeParse := λ v,
       match v with
       | VObj m =>
           match m !! "id"%string with
           | Some (VNum id) => SafeParseSuccess (obj [("id"%string, VNum id)])
           | Some _ => SafeParseError (issue "id" "Expected number")
           | None => SafeParseError (issue "id" "Required")
           end
       | _ => SafeParseError {| issues := [ {| path := []; message := "Expected object" |} ] |}
       end |}.

(** [z.literal("1").transform(Number)] *)
Definition one_schema : ZodSchema :=
  {| safeParse := λ v,
       match v with
       | VStr s =>
           if String.eqb s "1" then SafeParseSuccess (VNum 1)
           else SafeParseError {| issues := [ {| path := []; message := "Invalid literal value" |} ] |}
       | _ => SafeParseError {| issues := [ {| path := []; message := "Invalid literal value" |} ] |}
       end |}.

(** [{ a: 1, b: 2 }], [{ b: 3, c: 4 }] and [{ a: 1, b: 3, c: 4 }] *)
Definition ab : value := obj [("a"%string, VNum 1); ("b"%string, VNum 2)].
Definition bc : value := obj [("b"%string, VNum 3); ("c"%string, VNum 4)].
Definition abc : value :=
  obj [("a"%string, VNum 1); ("b"%string, VNum 3); ("c"%string, VNum 4)].

(** A request whose params are [{ id: "7" }], whose query is [{ page: "2" }]
    and whose body is ["1"]. *)
Definition route_request : NextApiRequest :=
  {| params := obj [("id"%string, VStr "7")];
     query := obj [("page"%string, VStr "2")];
     body := VStr "1" |}.

(** A request whose params and query are both [{ id: "7" }]. *)
Definition id_request : NextApiRequest :=
  {| params := obj [("id"%string, VStr "7")];
     query := obj [("id"%string, VStr "7")];
     body := VNull |}.

(** A request whose query is [{ a: 1, b: 2 }] and whose body is [{}]. *)
Definition ab_request : NextApiRequest :=
  {| params := VUndefined; query := ab; body := obj [] |}.

End Samples.

(** ** Further observations *)

(** Whether an event is a call to the schema engine. *)
Definition is_call (e : Event) : bool :=
  match e with
  | SafeParseCalled _ _ => true
  | _ => false
  end.

(** The errors returned by the schema calls of a log that rejected their
    input, in the order of the calls. *)
Definition rejections (tr : list Event) : list ZodError :=
  omap (λ e, match e with
             | SafeParseCalled schema input =>
                 match safeParse schema input with
                 | SafeParseError error => Some error
                 | SafeParseSuccess _ => None
                 end
             | _ => None
             end) tr.

(** The errors carried by the [meta] of the responses of a log, in order. *)
Definition reported (tr : list Event) : list ZodError :=
  concat ((λ r : Z * ErrorEnvelope, errors <$> env_meta r.2) <$> responses tr).

(** The schema calls of a log, in order. *)
Definition calls_of (tr : list Event) : list Event := List.filter is_call tr.

(** The steps made from one schema, as opposed to the aggregate steps made
    from a schema set. *)
Definition single_section (entry : EntryPoint) : bool :=
  match entry with
  | NextConnect_processRequest _ | NextConnect_validateRequest _
  | Index_processRequest _ | Index_validateRequest _ => false
  | _ => true
  end.

(** The entries a step owes to its response: one for each schema it was made
    from that rejects the value the step runs it on.  A step made from one
    schema runs it on the section of its name, [section] standing for the
    section [processRequestParams] takes; an aggregate step runs each schema
    on its own section, but for [processRequest] of [index.ts], which runs
    the query schema on the query section as an accepted params schema left
    it. *)
Definition violations (section : NextApiRequest → value) (entry : EntryPoint)
    (req : NextApiRequest) : list ErrorListItem :=
  match entry with
  | NextConnect_processRequestBody schema | NextConnect_validateRequestBody schema
  | Index_processRequestBody schema | Index_validateRequestBody schema =>
      violation Body (Some schema) (body req)
  | NextConnect_processRequestQuery schema | NextConnect_validateRequestQuery schema
  | Index_processRequestQuery schema | Index_validateRequestQuery schema =>
      violation Query (Some schema) (query req)
  | Index_validateRequestParams schema => violation Params (Some schema) (params req)
  | Index_processRequestParams schema => violation Params (Some schema) (section req)
  | NextConnect_processRequest schemas | NextConnect_validateRequest schemas =>
      violation Query (NextConnect.RequestValidation.query schemas) (query req)
      ++ violation Body (NextConnect.RequestValidation.body schemas) (body req)
  | Index_validateRequest schemas =>
      violation Params (Index.RequestValidation.params schemas) (params req)
      ++ violation Query (Index.RequestValidation.query schemas) (query req)
      ++ violation Body (Index.RequestValidation.body schemas) (body req)
  | Index_processRequest schemas =>
      violation Params (Index.RequestValidation.params schemas) (params req)
      ++ violation Query (Index.RequestValidation.query schemas)
           (overlaid (Index.RequestValidation.params schemas) (params req) (query req))
      ++ violation Body (Index.RequestValidation.body schemas) (body req)
  end.

(** The schema calls of a step: each schema it was made from, once, in the
    order params, query, body, with the value it is run on. *)
Definition schema_calls (entry : EntryPoint) (req : NextApiRequest) : list Event :=
  match entry with
  | NextConnect_processRequestBody schema | NextConnect_validateRequestBody schema
  | Index_processRequestBody schema | Index_validateRequestBody schema =>
      [SafeParseCalled schema (body req)]
  | NextConnect_processRequestQuery schema | NextConnect_validateRequestQuery schema
  | Index_processRequestQuery schema | Index_validateRequestQuery schema
  | Index_processRequestParams schema =>
      [SafeParseCalled schema (query req)]
  | Index_validateRequestParams schema => [SafeParseCalled schema (params req)]
  | NextConnect_processRequest schemas | NextConnect_validateRequest schemas =>
      evaluated (NextConnect.RequestValidation.query schemas) (query req)
      ++ evaluated (NextConnect.RequestValidation.body schemas) (body req)
  | Index_validateRequest schemas =>
      evaluated (Index.RequestValidation.params schemas) (params req)
      ++ evaluated (Index.RequestValidation.query schemas) (query req)
      ++ evaluated (Index.RequestValidation.body schemas) (body req)
  | Index_processRequest schemas =>
      evaluated (Index.RequestValidation.params schemas) (params req)
      ++ evaluated (Index.RequestValidation.query schemas)
           (overlaid (Index.RequestValidation.params schemas) (params req) (query req))
      ++ evaluated (Index.RequestValidation.body schemas) (body req)
  end.

(** The outcome of a step that runs [schema] on the body section, replaces
    the body section by the coerced output and advances, or reports the
    failure under [Body] and leaves the request as it was. *)
Definition body_replace_outcome (schema : ZodSchema) (req : NextApiRequest)
  : NextApiRequest * list Event :=
  match safeParse schema (body req) with
  | SafeParseSuccess data =>
      ({| params := params req; query := query req; body := data |},
       [SafeParseCalled schema (body req); NextCalled])
  | SafeParseError error =>
      (req, [SafeParseCalled schema (body req);
             ResponseWritten 400 (bad_request [ {| type := Body; errors := error |} ])])
  end.

(** Two steps that leave the same request, make the same schema calls and
    call the continuation equally often. *)
Definition process_alike (old new : Step) (req : NextApiRequest) : Prop :=
  (run new req).1 = (run old req).1
  ∧ calls_of (run new req).2 = calls_of (run old req).2
  ∧ next_calls (run new req).2 = next_calls (run old req).2.

(** The schema set of the two-section file as a schema set of [index.ts]:
    no params schema. *)
Definition without_params (schemas : NextConnect.RequestValidation.t)
  : Index.RequestValidation.t :=
  {| Index.RequestValidation.params := None;
     Index.RequestValidation.query := NextConnect.RequestValidation.query schemas;
     Index.RequestValidation.body := NextConnect.RequestValidation.body schemas |}.

(** Whether a run admitted the request: the continuation was called. *)
Definition admits (step : Step) (req : NextApiRequest) : Prop :=
  next_calls (run step req).2 = 1%nat.

(** ** Proofs *)

Ltac unfold_step :=
  cbv [run step_of
       NextConnect.processRequestBody NextConnect.processRequestQuery
       NextConnect.processRequest NextConnect.validateRequestBody
       NextConnect.validateRequestQuery NextConnect.validateRequest
       NextConnect.sendErrors
       Index.processRequestBody Index.processRequestParams Index.processRequestQuery
       Index.processRequest Index.validateRequestBody Index.validateRequestParams
       Index.validateRequestQuery Index.validateRequest Index.sendErrors
       answer ErrorCodes.BAD_REQUEST
       read assign_query assign_body emit call_safeParse next res_status_json push
       mbind mret Handler_bind Handler_ret].

(** Case analysis on the result of every schema call left in the goal. *)
Ltac case_parse :=
  repeat match goal with
         | H : safeParse ?s ?v = _ |- context [safeParse ?s ?v] => rewrite H; cbn
         | |- context [safeParse ?s ?v] =>
             let E := fresh "Hparse" in destruct (safeParse s v) eqn:E; cbn
         end.

(** Case analysis on an entry point and on which schemas its set holds. *)
Ltac destruct_entry entry :=
  destruct entry as [?s|?s|[[?qs|] [?bs|]]|?s|?s|[[?qs|] [?bs|]]
                    |?s|?s|?s|[[?ps|] [?qs|] [?bs|]]|?s|?s|?s|[[?ps|] [?qs|] [?bs|]]].

(** *** Sample runs *)

Example spread_ab_bc : spread Samples.ab Samples.bc = Samples.abc.
Proof. vm_compute. reflexivity. Qed.

Example spread_string : spread VNull (VStr "hi")
  = Samples.obj [("0"%string, VStr "h"); ("1"%string, VStr "i")].
Proof. vm_compute. reflexivity. Qed.

Example body_required :
  run (NextConnect.processRequestBody Samples.name_schema) Samples.ab_request
  = (Samples.ab_request,
     [SafeParseCalled Samples.name_schema (Samples.obj []);
      ResponseWritten 400
        (bad_request [ {| type := Body; errors := Samples.issue "name" "Required" |} ])]).
Proof. reflexivity. Qed.

(** *** Shared lemmas *)

Lemma fmap_copy_item (errors : list ErrorListItem) : copy_item <$> errors = errors.
Proof.
  induction errors as [|[label error] errors IH]; [reflexivity|].
  cbn. by rewrite IH.
Qed.

Lemma responses_app (tr1 tr2 : list Event) :
  responses (tr1 ++ tr2) = responses tr1 ++ responses tr2.
Proof. unfold responses. apply omap_app. Qed.

Lemma next_calls_app (tr1 tr2 : list Event) :
  next_calls (tr1 ++ tr2) = (next_calls tr1 + next_calls tr2)%nat.
Proof.
  induction tr1 as [|[] tr1 IH]; cbn; [reflexivity| | |]; by rewrite ?IH.
Qed.

Lemma rejected_app (tr1 tr2 : list Event) :
  rejected (tr1 ++ tr2) = rejected tr1 || rejected tr2.
Proof. unfold rejected. apply existsb_app. Qed.

Lemma responses_evaluated schema input : responses (evaluated schema input) = [].
Proof. by destruct schema. Qed.

Lemma next_calls_evaluated schema input : next_calls (evaluated schema input) = 0%nat.
Proof. by destruct schema. Qed.

(** A configured schema rejects its input exactly when it contributes an
    entry to [meta]. *)
Lemma rejected_evaluated label schema input :
  rejected (evaluated schema input) = bool_decide (violation label schema input ≠ []).
Proof.
  destruct schema as [s|]; cbn; [|reflexivity].
  by destruct (safeParse s input).
Qed.

(** The log of the three-section processing gate. *)
Lemma Index_processRequest_trace schemas req :
  let q1 := overlaid (Index.RequestValidation.params schemas) (params req) (query req) in
  (run (Index.processRequest schemas) req).2
  = evaluated (Index.RequestValidation.params schemas) (params req)
    ++ evaluated (Index.RequestValidation.query schemas) q1
    ++ evaluated (Index.RequestValidation.body schemas) (body req)
    ++ [decision (violation Params (Index.RequestValidation.params schemas) (params req)
                  ++ violation Query (Index.RequestValidation.query schemas) q1
                  ++ violation Body (Index.RequestValidation.body schemas) (body req))].
Proof.
  destruct schemas as [[ps|] [qs|] [bs|]]; unfold_step; cbn; case_parse; reflexivity.
Qed.

(** The log of the three-section validation gate. *)
Lemma Index_validateRequest_trace schemas req :
  (run (Index.validateRequest schemas) req).2
  = evaluated (Index.RequestValidation.params schemas) (params req)
    ++ evaluated (Index.RequestValidation.query schemas) (query req)
    ++ evaluated (Index.RequestValidation.body schemas) (body req)
    ++ [decision (violation Params (Index.RequestValidation.params schemas) (params req)
                  ++ violation Query (Index.RequestValidation.query schemas) (query req)
                  ++ violation Body (Index.RequestValidation.body schemas) (body req))].
Proof.
  destruct schemas as [[ps|] [qs|] [bs|]]; unfold_step; cbn; case_parse; reflexivity.
Qed.

(** The log of the two-section processing gate. *)
Lemma NextConnect_processRequest_trace schemas req :
  (run (NextConnect.processRequest schemas) req).2
  = evaluated (NextConnect.RequestValidation.query schemas) (query req)
    ++ evaluated (NextConnect.RequestValidation.body schemas) (body req)
    ++ [decision (violation Query (NextConnect.RequestValidation.query schemas) (query req)
                  ++ violation Body (NextConnect.RequestValidation.body schemas) (body req))].
Proof.
  destruct schemas as [[qs|] [bs|]]; unfold_step; cbn; case_parse; reflexivity.
Qed.

(** The log of the two-section validation gate. *)
Lemma NextConnect_validateRequest_trace schemas req :
  (run (NextConnect.validateRequest schemas) req).2
  = evaluated (NextConnect.RequestValidation.query schemas) (query req)
    ++ evaluated (NextConnect.RequestValidation.body schemas) (body req)
    ++ [decision (violation Query (NextConnect.RequestValidation.query schemas) (query req)
                  ++ violation Body (NextConnect.RequestValidation.body schemas) (body req))].
Proof.
  destruct schemas as [[qs|] [bs|]]; unfold_step; cbn; case_parse; reflexivity.
Qed.

(** The request as the three-section processing gate leaves it. *)
Lemma Index_processRequest_request schemas req :
  let q1 := overlaid (Index.RequestValidation.params schemas) (params req) (query req) in
  (run (Index.processRequest schemas) req).1
  = {| params := params req;
       query := overlaid (Index.RequestValidation.query schemas) q1 q1;
       body := replaced (Index.RequestValidation.body schemas) (body req) |}.
Proof.
  destruct req as [p q b].
  destruct schemas as [[ps|] [qs|] [bs|]]; unfold_step; cbn; case_parse; reflexivity.
Qed.

(** The request as the two-section processing gate leaves it. *)
Lemma NextConnect_processRequest_request schemas req :
  (run (NextConnect.processRequest schemas) req).1
  = {| params := params req;
       query := overlaid (NextConnect.RequestValidation.query schemas) (query req) (query req);
       body := replaced (NextConnect.RequestValidation.body schemas) (body req) |}.
Proof.
  destruct req as [p q b].
  destruct schemas as [[qs|] [bs|]]; unfold_step; cbn; case_parse; reflexivity.
Qed.

(** The validation gates never write to the request. *)
Lemma Index_validateRequest_request schemas req :
  (run (Index.validateRequest schemas) req).1 = req.
Proof.
  destruct req as [p q b].
  destruct schemas as [[ps|] [qs|] [bs|]]; unfold_step; cbn; case_parse; reflexivity.
Qed.

Lemma NextConnect_validateRequest_request schemas req :
  (run (NextConnect.validateRequest schemas) req).1 = req.
Proof.
  destruct req as [p q b].
  destruct schemas as [[qs|] [bs|]]; unfold_step; cbn; case_parse; reflexivity.
Qed.

(** What a log that ends in the decision on [meta] shows of responses and of
    calls to the continuation. *)
Lemma responses_decision (meta : list ErrorListItem) :
  responses [decision meta]
  = match meta with [] => [] | _ :: _ => [(400, bad_request meta)] end.
Proof. by destruct meta. Qed.

Lemma next_calls_decision (meta : list ErrorListItem) :
  next_calls [decision meta] = match meta with [] => 1%nat | _ :: _ => 0%nat end.
Proof. by destruct meta. Qed.

Lemma aggregate_outcome_intro (tr parses : list Event) (meta : list ErrorListItem) :
  responses parses = [] → next_calls parses = 0%nat →
  tr = parses ++ [decision meta] → aggregate_outcome tr parses meta.
Proof.
  intros Hres Hnext ->. split; [reflexivity|].
  rewrite responses_app, next_calls_app, Hres, Hnext,
    responses_decision, next_calls_decision.
  by destruct meta.
Qed.

Lemma responses_evaluated3 s1 v1 s2 v2 s3 v3 :
  responses (evaluated s1 v1 ++ evaluated s2 v2 ++ evaluated s3 v3) = [].
Proof. by rewrite !responses_app, !responses_evaluated. Qed.

Lemma next_calls_evaluated3 s1 v1 s2 v2 s3 v3 :
  next_calls (evaluated s1 v1 ++ evaluated s2 v2 ++ evaluated s3 v3) = 0%nat.
Proof. by rewrite !next_calls_app, !next_calls_evaluated. Qed.

(** *** The aggregate gate *)

(** C1, as stated, fails for [processRequest] of [index.ts]: with
    [{ id: "7" }] as params and as query, each section satisfies its schema,
    yet the query schema is run on the query section overlaid with the params
    output [{ id: 7 }] and the step answers 400 under [Query]. *)
Lemma processRequest_rejects_on_overlaid_query :
  ¬ aggregate_outcome
      (run (Index.processRequest
              {| Index.RequestValidation.params := Some Samples.id_schema;
                 Index.RequestValidation.query := Some Samples.id_schema;
                 Index.RequestValidation.body := None |})
           Samples.id_request).2
      (evaluated (Some Samples.id_schema) (params Samples.id_request)
       ++ evaluated (Some Samples.id_schema) (query Samples.id_request)
       ++ evaluated None (body Samples.id_request))
      (violation Params (Some Samples.id_schema) (params Samples.id_request)
       ++ violation Query (Some Samples.id_schema) (query Samples.id_request)
       ++ violation Body None (body Samples.id_request)).
Proof.
  intros (_ & _ & Hnext). vm_compute in Hnext. discriminate Hnext.
Qed.

(** C1, amended.  The aggregate steps call the schema of every configured
    section, in the order params, query, body, whatever the earlier results
    were, each on its own section of the request, but for [processRequest] of
    [index.ts], which hands the query schema the query section as the params
    turn left it; then they write one 400 envelope whose [meta] lists the
    entries of exactly the schemas that rejected what they were handed, in
    that order, or, when there is none, call the continuation once. *)
Theorem aggregate_gate_collects_all_failures :
  (∀ schemas req,
     let ps := Index.RequestValidation.params schemas in
     let qs := Index.RequestValidation.query schemas in
     let bs := Index.RequestValidation.body schemas in
     let q1 := overlaid ps (params req) (query req) in
     aggregate_outcome (run (Index.processRequest schemas) req).2
       (evaluated ps (params req) ++ evaluated qs q1 ++ evaluated bs (body req))
       (violation Params ps (params req) ++ violation Query qs q1
        ++ violation Body bs (body req)))
  ∧ (∀ schemas req,
     let ps := Index.RequestValidation.params schemas in
     let qs := Index.RequestValidation.query schemas in
     let bs := Index.RequestValidation.body schemas in
     aggregate_outcome (run (Index.validateRequest schemas) req).2
       (evaluated ps (params req) ++ evaluated qs (query req) ++ evaluated bs (body req))
       (violation Params ps (params req) ++ violation Query qs (query req)
        ++ violation Body bs (body req)))
  ∧ (∀ schemas req,
     let qs := NextConnect.RequestValidation.query schemas in
     let bs := NextConnect.RequestValidation.body schemas in
     aggregate_outcome (run (NextConnect.processRequest schemas) req).2
       (evaluated qs (query req) ++ evaluated bs (body req))
       (violation Query qs (query req) ++ violation Body bs (body req)))
  ∧ (∀ schemas req,
     let qs := NextConnect.RequestValidation.query schemas in
     let bs := NextConnect.RequestValidation.body schemas in
     aggregate_outcome (run (NextConnect.validateRequest schemas) req).2
       (evaluated qs (query req) ++ evaluated bs (body req))
       (violation Query qs (query req) ++ violation Body bs (body req))).
Proof.
  split; [|split; [|split]]; intros schemas req; cbv zeta.
  - apply aggregate_outcome_intro;
      [apply responses_evaluated3 | apply next_calls_evaluated3 |].
    rewrite Index_processRequest_trace. cbv zeta. by rewrite <- !app_assoc.
  - apply aggregate_outcome_intro;
      [apply responses_evaluated3 | apply next_calls_evaluated3 |].
    rewrite Index_validateRequest_trace. by rewrite <- !app_assoc.
  - apply aggregate_outcome_intro;
      [by rewrite responses_app, !responses_evaluated
      |by rewrite next_calls_app, !next_calls_evaluated |].
    rewrite NextConnect_processRequest_trace. by rewrite <- !app_assoc.
  - apply aggregate_outcome_intro;
      [by rewrite responses_app, !responses_evaluated
      |by rewrite next_calls_app, !next_calls_evaluated |].
    rewrite NextConnect_validateRequest_trace. by rewrite <- !app_assoc.
Qed.

(** Both params and query fail, the body passes: two entries, in order. *)
Example params_and_query_fail :
  (run (Index.processRequest
          {| Index.RequestValidation.params := Some Samples.name_schema;
             Index.RequestValidation.query := Some Samples.id_schema;
             Index.RequestValidation.body := Some Samples.one_schema |})
       Samples.route_request).2
  = [SafeParseCalled Samples.name_schema (params Samples.route_request);
     SafeParseCalled Samples.id_schema (query Samples.route_request);
     SafeParseCalled Samples.one_schema (body Samples.route_request);
     ResponseWritten 400
       (bad_request [ {| type := Params; errors := Samples.issue "name" "Required" |};
                      {| type := Query; errors := Samples.issue "id" "Required" |} ])].
Proof. vm_compute. reflexivity. Qed.

(** *** Responses and the continuation *)

(** C2, as stated, fails for [processRequest] of [index.ts]: the query
    section [{ page: "2" }] is rejected by its schema, which wants a numeric
    [id]; but the schema is run on the query section overlaid with the params
    output [{ id: 7 }], accepts, and the step calls the continuation and
    writes nothing. *)
Lemma processRequest_admits_rejected_query :
  violation Query (Some Samples.number_id_schema) (query Samples.route_request) ≠ []
  ∧ next_calls
      (run (Index.processRequest
              {| Index.RequestValidation.params := Some Samples.id_schema;
                 Index.RequestValidation.query := Some Samples.number_id_schema;
                 Index.RequestValidation.body := None |})
           Samples.route_request).2 = 1%nat
  ∧ responses
      (run (Index.processRequest
              {| Index.RequestValidation.params := Some Samples.id_schema;
                 Index.RequestValidation.query := Some Samples.number_id_schema;
                 Index.RequestValidation.body := None |})
           Samples.route_request).2 = [].
Proof.
  split; [|split].
  - vm_compute. discriminate.
  - vm_compute. reflexivity.
  - vm_compute. reflexivity.
Qed.

(** C2, amended.  Whatever the entry point and the request: when one of the
    schemas the step was made from rejects the value the step runs it on, the
    step writes exactly one response, with status 400 and the payload
    [{ success: false, errorCode: "bad_request", meta }], [meta] holding the
    entries of the rejecting schemas, and does not call the continuation;
    when they all accept it writes nothing and calls the continuation once.
    The continuation is never called twice.  Each schema is run on its own
    section, but for the query schema of [processRequest] of [index.ts], run
    on the query section as an accepted params schema left it; the section
    [processRequestParams] runs its schema on is one of the three. *)
Theorem gate_responds_once_or_advances_once (entry : EntryPoint) (req : NextApiRequest) :
  ∃ section : NextApiRequest → value,
    (section = params ∨ section = query ∨ section = body)
    ∧ responses (run (step_of entry) req).2
      = match violations section entry req with
        | [] => []
        | _ :: _ => [(400, bad_request (violations section entry req))]
        end
    ∧ next_calls (run (step_of entry) req).2
      = match violations section entry req with
        | [] => 1%nat
        | _ :: _ => 0%nat
        end
    ∧ (next_calls (run (step_of entry) req).2 ≤ 1)%nat.
Proof.
  exists query. split; [by right; left|].
  destruct_entry entry; unfold_step; cbn; case_parse; repeat split; lia.
Qed.

(** *** Failing invocations and the request object *)

(** C3, as stated, fails: the query schema rejects, the body schema accepts,
    and the rejected request carries the coerced body. *)
Lemma failing_processRequest_keeps_coerced_body :
  ¬ (∀ schemas req,
       rejected (run (Index.processRequest schemas) req).2 = true →
       (run (Index.processRequest schemas) req).1 = req).
Proof.
  intros H.
  specialize (H {| Index.RequestValidation.params := None;
                   Index.RequestValidation.query := Some Samples.name_schema;
                   Index.RequestValidation.body := Some Samples.one_schema |}
                Samples.route_request eq_refl).
  apply (f_equal body) in H. vm_compute in H. discriminate H.
Qed.

(** C3, amended.  [validateRequest] leaves the request as it was, whatever
    the outcome.  [processRequest] writes as it goes: after an invocation,
    also a failing one, the query section is overlaid with the coerced output
    of the schemas that accepted (in [index.ts] the params output first, then
    the output of the query schema, which is run on the overlaid query), the
    body section is replaced by the coerced output of the body schema if that
    schema accepted, and a schema that rejected writes nothing.  So the
    request is as it was when no configured schema accepted. *)
Theorem processRequest_commits_accepted_sections
    (schemas : Index.RequestValidation.t) (nc_schemas : NextConnect.RequestValidation.t)
    (req : NextApiRequest) :
  (run (Index.validateRequest schemas) req).1 = req
  ∧ (run (NextConnect.validateRequest nc_schemas) req).1 = req
  ∧ (run (Index.processRequest schemas) req).1
    = {| params := params req;
         query :=
           overlaid (Index.RequestValidation.query schemas)
             (overlaid (Index.RequestValidation.params schemas) (params req) (query req))
             (overlaid (Index.RequestValidation.params schemas) (params req) (query req));
         body := replaced (Index.RequestValidation.body schemas) (body req) |}
  ∧ (run (NextConnect.processRequest nc_schemas) req).1
    = {| params := params req;
         query := overlaid (NextConnect.RequestValidation.query nc_schemas)
                    (query req) (query req);
         body := replaced (NextConnect.RequestValidation.body nc_schemas) (body req) |}
  ∧ (accepts (Index.RequestValidation.params schemas) (params req)
     || accepts (Index.RequestValidation.query schemas) (query req)
     || accepts (Index.RequestValidation.body schemas) (body req) = false →
     (run (Index.processRequest schemas) req).1 = req)
  ∧ (accepts (NextConnect.RequestValidation.query nc_schemas) (query req)
     || accepts (NextConnect.RequestValidation.body nc_schemas) (body req) = false →
     (run (NextConnect.processRequest nc_schemas) req).1 = req).
Proof.
  split; [apply Index_validateRequest_request|].
  split; [apply NextConnect_validateRequest_request|].
  split; [apply Index_processRequest_request|].
  split; [apply NextConnect_processRequest_request|].
  split; intros Hnone.
  - rewrite Index_processRequest_request. cbv zeta.
    apply orb_false_iff in Hnone as [Hnone Hb].
    apply orb_false_iff in Hnone as [Hp Hq].
    destruct req as [p q b], schemas as [[ps|] [qs|] [bs|]]; cbn in *;
      try (destruct (safeParse ps p); [discriminate Hp|]; cbn);
      try (destruct (safeParse qs q); [discriminate Hq|]; cbn);
      try (destruct (safeParse bs b); [discriminate Hb|]; cbn);
      reflexivity.
  - rewrite NextConnect_processRequest_request.
    apply orb_false_iff in Hnone as [Hq Hb].
    destruct req as [p q b], nc_schemas as [[qs|] [bs|]]; cbn in *;
      repeat match goal with
             | H : success (safeParse ?s ?v) = false |- _ =>
                 destruct (safeParse s v); [discriminate H|clear H]
             end; reflexivity.
Qed.

Lemma processRequest_commits_accepted_sections_witness :
  accepts (Some Samples.name_schema) (params Samples.route_request)
  || accepts (Some Samples.id_schema) (query Samples.route_request)
  || accepts None (body Samples.route_request) = false
  ∧ (run (Index.processRequest
            {| Index.RequestValidation.params := Some Samples.name_schema;
               Index.RequestValidation.query := Some Samples.id_schema;
               Index.RequestValidation.body := None |})
         Samples.route_request).1
    = Samples.route_request
  ∧ accepts (Some Samples.id_schema) (query Samples.route_request)
    || accepts None (body Samples.route_request) = false
  ∧ (run (NextConnect.processRequest
            {| NextConnect.RequestValidation.query := Some Samples.id_schema;
               NextConnect.RequestValidation.body := None |})
         Samples.route_request).1
    = Samples.route_request.
Proof.
  split; [reflexivity|]. split; [|split; [reflexivity|]].
  - exact (proj1 (proj2 (proj2 (proj2 (proj2
      (processRequest_commits_accepted_sections
         {| Index.RequestValidation.params := Some Samples.name_schema;
            Index.RequestValidation.query := Some Samples.id_schema;
            Index.RequestValidation.body := None |}
         {| NextConnect.RequestValidation.query := Some Samples.id_schema;
            NextConnect.RequestValidation.body := None |}
         Samples.route_request))))) eq_refl).
  - exact (proj2 (proj2 (proj2 (proj2 (proj2
      (processRequest_commits_accepted_sections
         {| Index.RequestValidation.params := Some Samples.name_schema;
            Index.RequestValidation.query := Some Samples.id_schema;
            Index.RequestValidation.body := None |}
         {| NextConnect.RequestValidation.query := Some Samples.id_schema;
            NextConnect.RequestValidation.body := None |}
         Samples.route_request))))) eq_refl).
Defined.

(** *** Single-section processing *)

Lemma Index_processRequestParams_outcome schema req :
  run (Index.processRequestParams schema) req
  = query_overlay_outcome Params schema (query req) req.
Proof.
  destruct req as [p q b]. unfold query_overlay_outcome. unfold_step. cbn.
  case_parse; reflexivity.
Qed.

Lemma Index_processRequestQuery_outcome schema req :
  run (Index.processRequestQuery schema) req
  = query_overlay_outcome Query schema (query req) req.
Proof.
  destruct req as [p q b]. unfold query_overlay_outcome. unfold_step. cbn.
  case_parse; reflexivity.
Qed.

Lemma NextConnect_processRequestQuery_outcome schema req :
  run (NextConnect.processRequestQuery schema) req
  = query_overlay_outcome Query schema (query req) req.
Proof.
  destruct req as [p q b]. unfold query_overlay_outcome. unfold_step. cbn.
  case_parse; reflexivity.
Qed.

(** C4, as stated, fails: with [{ id: "7" }] as params and as query the
    schema accepts, and the coerced [{ id: 7 }] lands in the query section
    while the params section keeps the string. *)
Lemma processRequestParams_leaves_params_unwritten :
  run (Index.processRequestParams Samples.id_schema) Samples.id_request
  ≠ params_overlay_outcome Samples.id_schema Samples.id_request.
Proof.
  intros H. apply (f_equal (λ r, Samples.prop "id" (params r.1))) in H.
  vm_compute in H. discriminate H.
Qed.

(** The params [{ id: "7" }] of this request satisfy the schema, its query
    [{ page: "2" }] does not: the step answers 400. *)
Example processRequestParams_rejects_valid_params :
  run (Index.processRequestParams Samples.id_schema) Samples.route_request
  = (Samples.route_request,
     [SafeParseCalled Samples.id_schema (query Samples.route_request);
      ResponseWritten 400
        (bad_request [ {| type := Params; errors := Samples.issue "id" "Required" |} ])]).
Proof. vm_compute. reflexivity. Qed.

(** C4, amended.  [processRequestParams] runs the schema once, on the value
    of one section of the request; on success it overlays the coerced output
    onto the query section, leaves params and body as they were and advances;
    on failure it leaves the request as it was and writes the 400 envelope
    with the single entry labelled [Params]. *)
Theorem processRequestParams_overlays_query (schema : ZodSchema) (req : NextApiRequest) :
  ∃ section : NextApiRequest → value,
    (section = params ∨ section = query ∨ section = body)
    ∧ run (Index.processRequestParams schema) req
      = query_overlay_outcome Params schema (section req) req.
Proof.
  exists query. split; [by right; left|]. apply Index_processRequestParams_outcome.
Qed.

(** *** Section updates of the aggregate gate *)

(** C5, as stated, fails: the accepted params leave [req.params] as it was
    and land in [req.query]. *)
Lemma processRequest_params_land_in_query :
  (run (Index.processRequest
          {| Index.RequestValidation.params := Some Samples.id_schema;
             Index.RequestValidation.query := None;
             Index.RequestValidation.body := None |})
       Samples.route_request).1
  ≠ sectionwise_request
      {| Index.RequestValidation.params := Some Samples.id_schema;
         Index.RequestValidation.query := None;
         Index.RequestValidation.body := None |}
      Samples.route_request.
Proof.
  intros H. apply (f_equal (λ r, Samples.prop "id" (query r))) in H.
  vm_compute in H. discriminate H.
Qed.

(** C5, amended.  In [processRequest] an accepted section updates the request
    in one place only: the coerced params output and the coerced query output
    are overlaid, in that order, onto [req.query], and the coerced body output
    replaces [req.body]; [req.params] is never written, and a section that is
    not configured or is rejected changes nothing. *)
Theorem processRequest_updates_query_and_body :
  (∀ schemas req,
     let q1 := overlaid (Index.RequestValidation.params schemas) (params req) (query req) in
     (run (Index.processRequest schemas) req).1
     = {| params := params req;
          query := overlaid (Index.RequestValidation.query schemas) q1 q1;
          body := replaced (Index.RequestValidation.body schemas) (body req) |})
  ∧ (∀ schemas req,
     (run (NextConnect.processRequest schemas) req).1
     = {| params := params req;
          query := overlaid (NextConnect.RequestValidation.query schemas)
                     (query req) (query req);
          body := replaced (NextConnect.RequestValidation.body schemas) (body req) |}).
Proof.
  split; intros schemas req.
  - apply Index_processRequest_request.
  - apply NextConnect_processRequest_request.
Qed.

Example accepted_params_and_body :
  let after :=
    (run (Index.processRequest
            {| Index.RequestValidation.params := Some Samples.id_schema;
               Index.RequestValidation.query := None;
               Index.RequestValidation.body := Some Samples.one_schema |})
         Samples.route_request).1 in
  params after = params Samples.route_request
  ∧ query after = Samples.obj [("id"%string, VNum 7); ("page"%string, VStr "2")]
  ∧ body after = VNum 1.
Proof. vm_compute. repeat split. Qed.

(** *** Validation against processing *)

(** C6, as stated, fails: [validateRequest] leaves the body ["1"] as it is,
    [processRequest] replaces it by the number 1. *)
Lemma validateRequest_differs_from_processRequest :
  ¬ (∀ schemas req,
       run (Index.validateRequest schemas) req = run (Index.processRequest schemas) req).
Proof.
  intros H.
  specialize (H {| Index.RequestValidation.params := None;
                   Index.RequestValidation.query := None;
                   Index.RequestValidation.body := Some Samples.one_schema |}
                Samples.route_request).
  apply (f_equal (λ r, body r.1)) in H. vm_compute in H. discriminate H.
Qed.

(** C6, amended.  [validateRequest] applies no coercion: it leaves the
    request as it was, whatever the outcome, where [processRequest] writes the
    coerced output of the accepted sections: the query section overlaid with
    the outputs of the accepting params and query schemas, the body section
    replaced by the output of the accepting body schema.  Apart from that the
    two agree: in the two-section file always, and in [index.ts] in an
    invocation in which no params schema accepted, they make the same schema
    calls on the same inputs and take the same decision, the same 400
    envelope or the one call of the continuation. *)
Theorem validateRequest_decides_as_processRequest
    (schemas : Index.RequestValidation.t) (nc_schemas : NextConnect.RequestValidation.t)
    (req : NextApiRequest) :
  (run (Index.validateRequest schemas) req).1 = req
  ∧ (run (NextConnect.validateRequest nc_schemas) req).1 = req
  ∧ (run (Index.processRequest schemas) req).1
    = {| params := params req;
         query :=
           overlaid (Index.RequestValidation.query schemas)
             (overlaid (Index.RequestValidation.params schemas) (params req) (query req))
             (overlaid (Index.RequestValidation.params schemas) (params req) (query req));
         body := replaced (Index.RequestValidation.body schemas) (body req) |}
  ∧ (run (NextConnect.processRequest nc_schemas) req).1
    = {| params := params req;
         query := overlaid (NextConnect.RequestValidation.query nc_schemas)
                    (query req) (query req);
         body := replaced (NextConnect.RequestValidation.body nc_schemas) (body req) |}
  ∧ (run (NextConnect.validateRequest nc_schemas) req).2
    = (run (NextConnect.processRequest nc_schemas) req).2
  ∧ (accepts (Index.RequestValidation.params schemas) (params req) = false →
     (run (Index.validateRequest schemas) req).2
     = (run (Index.processRequest schemas) req).2).
Proof.
  split; [apply Index_validateRequest_request|].
  split; [apply NextConnect_validateRequest_request|].
  split; [apply Index_processRequest_request|].
  split; [apply NextConnect_processRequest_request|].
  split.
  - by rewrite NextConnect_validateRequest_trace, NextConnect_processRequest_trace.
  - intros Hparams.
    assert (overlaid (Index.RequestValidation.params schemas) (params req) (query req)
            = query req) as Hq1.
    { destruct schemas as [[ps|] qs bs]; cbn in *; [|reflexivity].
      by destruct (safeParse ps (params req)). }
    rewrite Index_validateRequest_trace, Index_processRequest_trace. cbv zeta.
    by rewrite Hq1.
Qed.

Lemma validateRequest_decides_as_processRequest_witness :
  accepts (Some Samples.name_schema) (params Samples.route_request) = false
  ∧ (run (Index.validateRequest
            {| Index.RequestValidation.params := Some Samples.name_schema;
               Index.RequestValidation.query := Some Samples.id_schema;
               Index.RequestValidation.body := Some Samples.one_schema |})
         Samples.route_request).2
    = (run (Index.processRequest
              {| Index.RequestValidation.params := Some Samples.name_schema;
                 Index.RequestValidation.query := Some Samples.id_schema;
                 Index.RequestValidation.body := Some Samples.one_schema |})
           Samples.route_request).2.
Proof.
  split; [reflexivity|].
  exact (proj2 (proj2 (proj2 (proj2 (proj2
    (validateRequest_decides_as_processRequest
       {| Index.RequestValidation.params := Some Samples.name_schema;
          Index.RequestValidation.query := Some Samples.id_schema;
          Index.RequestValidation.body := Some Samples.one_schema |}
       {| NextConnect.RequestValidation.query := Some Samples.id_schema;
          NextConnect.RequestValidation.body := Some Samples.one_schema |}
       Samples.route_request))))) eq_refl).
Defined.

(** *** Validation-only steps *)

(** C7. A validation-only step for one section calls the schema on that
    section and leaves the whole request as it was; it calls the continuation
    when the schema accepts, and otherwise writes the 400 envelope whose
    [meta] is the single entry of that section, without calling the
    continuation. *)
Theorem validation_only_step_outcome (schema : ZodSchema) (req : NextApiRequest) :
  run (Index.validateRequestBody schema) req = validation_outcome Body body schema req
  ∧ run (Index.validateRequestParams schema) req
    = validation_outcome Params params schema req
  ∧ run (Index.validateRequestQuery schema) req = validation_outcome Query query schema req
  ∧ run (NextConnect.validateRequestBody schema) req
    = validation_outcome Body body schema req
  ∧ run (NextConnect.validateRequestQuery schema) req
    = validation_outcome Query query schema req.
Proof.
  destruct req as [p q b]. unfold validation_outcome.
  repeat split; unfold_step; cbn; case_parse; reflexivity.
Qed.

(** C8. When the query section is [{ a: 1, b: 2 }] and the schema parses it
    to [{ b: 3, c: 4 }], the query processing step leaves
    [{ a: 1, b: 3, c: 4 }] in the query section. *)
Theorem processRequestQuery_merges (schema : ZodSchema) (req : NextApiRequest) :
  query req = Samples.ab →
  safeParse schema (query req) = SafeParseSuccess Samples.bc →
  query (run (Index.processRequestQuery schema) req).1 = Samples.abc
  ∧ query (run (NextConnect.processRequestQuery schema) req).1 = Samples.abc.
Proof.
  intros Hquery Hparse.
  rewrite Index_processRequestQuery_outcome, NextConnect_processRequestQuery_outcome.
  unfold query_overlay_outcome. rewrite Hparse. cbn. rewrite Hquery.
  split; apply spread_ab_bc.
Qed.

Lemma processRequestQuery_merges_witness :
  query (run (Index.processRequestQuery (Samples.constant Samples.bc))
           Samples.ab_request).1 = Samples.abc
  ∧ query (run (NextConnect.processRequestQuery (Samples.constant Samples.bc))
             Samples.ab_request).1 = Samples.abc.
Proof.
  apply (processRequestQuery_merges (Samples.constant Samples.bc) Samples.ab_request);
    reflexivity.
Defined.

(** C9. A validation-only step for one section, run on a request whose
    section the schema accepts and run again on the request as the first run
    left it, advances both times, with the same log, and leaves the request
    as the first run left it. *)
Theorem validation_only_is_idempotent (entry : EntryPoint) (schema : ZodSchema)
    (section : NextApiRequest → value) (label : SectionLabel) (req : NextApiRequest) :
  validation_only entry = Some (schema, section, label) →
  success (safeParse schema (section req)) = true →
  advances_idempotently (step_of entry) req.
Proof.
  intros Hentry Haccepts. unfold advances_idempotently.
  destruct req as [p q b].
  destruct entry; try discriminate Hentry; injection Hentry as <- <- <-;
    cbn in Haccepts;
    match type of Haccepts with
    | context [safeParse ?s ?v] => destruct (safeParse s v) eqn:Hparse
    end; try discriminate Haccepts;
    unfold_step; cbn; case_parse; try discriminate; repeat split.
Qed.

Lemma validation_only_is_idempotent_witness :
  advances_idempotently
    (step_of (Index_validateRequestBody Samples.one_schema)) Samples.route_request.
Proof.
  apply (validation_only_is_idempotent
           (Index_validateRequestBody Samples.one_schema)
           Samples.one_schema body Body Samples.route_request); reflexivity.
Defined.

(** *** Params processing against query processing *)

(** C10. [processRequestParams] and [processRequestQuery] do the same thing
    but for the label of the entry they report: both run the schema on
    [req.query] and overlay the coerced output onto [req.query]; the params
    section has no influence on what [processRequestParams] does and comes
    out as it went in. *)
Theorem processRequestParams_is_processRequestQuery (schema : ZodSchema)
    (req : NextApiRequest) :
  run (Index.processRequestParams schema) req
  = query_overlay_outcome Params schema (query req) req
  ∧ run (Index.processRequestQuery schema) req
    = query_overlay_outcome Query schema (query req) req
  ∧ (run (Index.processRequestParams schema) req).1
    = (run (Index.processRequestQuery schema) req).1
  ∧ (∀ v : value,
       run (Index.processRequestParams schema) (with_params v req)
       = (with_params v (run (Index.processRequestParams schema) req).1,
          (run (Index.processRequestParams schema) req).2)).
Proof.
  split; [apply Index_processRequestParams_outcome|].
  split; [apply Index_processRequestQuery_outcome|].
  split.
  - rewrite Index_processRequestParams_outcome, Index_processRequestQuery_outcome.
    unfold query_overlay_outcome. by destruct (safeParse schema (query req)).
  - intros v. rewrite !Index_processRequestParams_outcome.
    unfold query_overlay_outcome, with_params. cbn.
    by destruct (safeParse schema (query req)).
Qed.

(** ** Further properties of the steps *)

(** *** Atomicity and frame *)

(** X1. A step made from one schema is atomic: when its schema rejects, the
    request is left exactly as it was. *)
Theorem single_section_step_is_atomic (entry : EntryPoint) (req : NextApiRequest) :
  single_section entry = true →
  rejected (run (step_of entry) req).2 = true →
  (run (step_of entry) req).1 = req.
Proof.
  intros Hsingle Hrejected. destruct req as [p q b].
  destruct entry; try discriminate Hsingle; revert Hrejected;
    unfold_step; cbn; case_parse; intros Hrejected;
    try discriminate Hrejected; reflexivity.
Qed.

Lemma single_section_step_is_atomic_witness :
  (run (Index.processRequestBody Samples.name_schema) Samples.ab_request).1
  = Samples.ab_request.
Proof.
  apply (single_section_step_is_atomic
           (Index_processRequestBody Samples.name_schema) Samples.ab_request);
    reflexivity.
Defined.

(** X2. No step ever writes the params section. *)
Theorem no_step_writes_params (entry : EntryPoint) (req : NextApiRequest) :
  params (run (step_of entry) req).1 = params req.
Proof.
  destruct entry as [s|s|[[qs|] [bs|]]|s|s|[[qs|] [bs|]]
                    |s|s|s|[[ps|] [qs|] [bs|]]|s|s|s|[[ps|] [qs|] [bs|]]];
    unfold_step; cbn; case_parse; reflexivity.
Qed.

(** X3. A processing step made from one schema writes its own target only:
    the body step leaves the query section as it was, the query and params
    steps leave the body section as it was. *)
Theorem processing_step_keeps_other_sections (schema : ZodSchema) (req : NextApiRequest) :
  query (run (Index.processRequestBody schema) req).1 = query req
  ∧ query (run (NextConnect.processRequestBody schema) req).1 = query req
  ∧ body (run (Index.processRequestQuery schema) req).1 = body req
  ∧ body (run (Index.processRequestParams schema) req).1 = body req
  ∧ body (run (NextConnect.processRequestQuery schema) req).1 = body req.
Proof.
  repeat split; unfold_step; cbn; case_parse; reflexivity.
Qed.

(** *** The shape of the log *)

(** X4. The log of every step is: one call for each schema the step was
    made from, in the order params, query, body, each on the value of the
    section the step runs it on, and then one final event that is not a
    schema call, the call of the continuation or the response.  So every
    configured schema is called exactly once and nothing is parsed after the
    decision. *)
Theorem step_log_shape (entry : EntryPoint) (req : NextApiRequest) :
  ∃ final : Event,
    (run (step_of entry) req).2 = schema_calls entry req ++ [final]
    ∧ is_call final = false.
Proof.
  destruct_entry entry; unfold_step; cbn; case_parse;
    eexists; (split; [reflexivity|reflexivity]).
Qed.

(** X5. What a step reports is what the schemas returned: the errors in the
    [meta] of its responses are the errors of the rejecting schema calls, one
    for one and in the order of the calls; a step whose calls all accepted
    reports nothing. *)
Theorem reported_errors_are_rejections (entry : EntryPoint) (req : NextApiRequest) :
  reported (run (step_of entry) req).2 = rejections (run (step_of entry) req).2.
Proof.
  destruct_entry entry; unfold_step; cbn; case_parse; reflexivity.
Qed.

(** *** Degenerate and one-schema schema sets *)

(** X6. An aggregate step made from the empty schema set calls no schema,
    leaves the request as it was and calls the continuation. *)
Theorem empty_schema_set_admits (req : NextApiRequest) :
  run (Index.processRequest
         {| Index.RequestValidation.params := None;
            Index.RequestValidation.query := None;
            Index.RequestValidation.body := None |}) req = (req, [NextCalled])
  ∧ run (Index.validateRequest
           {| Index.RequestValidation.params := None;
              Index.RequestValidation.query := None;
              Index.RequestValidation.body := None |}) req = (req, [NextCalled])
  ∧ run (NextConnect.processRequest
           {| NextConnect.RequestValidation.query := None;
              NextConnect.RequestValidation.body := None |}) req = (req, [NextCalled])
  ∧ run (NextConnect.validateRequest
           {| NextConnect.RequestValidation.query := None;
              NextConnect.RequestValidation.body := None |}) req = (req, [NextCalled]).
Proof. by destruct req. Qed.

(** X7. An aggregate step made from a schema set with one schema is the step
    made from that schema for that section: same request afterwards, same
    log.  (For the params schema this holds of validation only.) *)
Theorem one_schema_set_is_single_step (schema : ZodSchema) (req : NextApiRequest) :
  run (Index.processRequest
         {| Index.RequestValidation.params := None;
            Index.RequestValidation.query := None;
            Index.RequestValidation.body := Some schema |}) req
  = run (Index.processRequestBody schema) req
  ∧ run (Index.processRequest
           {| Index.RequestValidation.params := None;
              Index.RequestValidation.query := Some schema;
              Index.RequestValidation.body := None |}) req
    = run (Index.processRequestQuery schema) req
  ∧ run (Index.validateRequest
           {| Index.RequestValidation.params := Some schema;
              Index.RequestValidation.query := None;
              Index.RequestValidation.body := None |}) req
    = run (Index.validateRequestParams schema) req
  ∧ run (Index.validateRequest
           {| Index.RequestValidation.params := None;
              Index.RequestValidation.query := Some schema;
              Index.RequestValidation.body := None |}) req
    = run (Index.validateRequestQuery schema) req
  ∧ run (Index.validateRequest
           {| Index.RequestValidation.params := None;
              Index.RequestValidation.query := None;
              Index.RequestValidation.body := Some schema |}) req
    = run (Index.validateRequestBody schema) req
  ∧ run (NextConnect.processRequest
           {| NextConnect.RequestValidation.query := None;
              NextConnect.RequestValidation.body := Some schema |}) req
    = run (NextConnect.processRequestBody schema) req
  ∧ run (NextConnect.processRequest
           {| NextConnect.RequestValidation.query := Some schema;
              NextConnect.RequestValidation.body := None |}) req
    = run (NextConnect.processRequestQuery schema) req
  ∧ run (NextConnect.validateRequest
           {| NextConnect.RequestValidation.query := Some schema;
              NextConnect.RequestValidation.body := None |}) req
    = run (NextConnect.validateRequestQuery schema) req
  ∧ run (NextConnect.validateRequest
           {| NextConnect.RequestValidation.query := None;
              NextConnect.RequestValidation.body := Some schema |}) req
    = run (NextConnect.validateRequestBody schema) req.
Proof.
  destruct req as [p q b].
  repeat apply conj; unfold_step; cbn; case_parse; reflexivity.
Qed.

(** *** Body processing *)

Lemma Index_processRequestBody_outcome schema req :
  run (Index.processRequestBody schema) req = body_replace_outcome schema req.
Proof.
  destruct req as [p q b]. unfold body_replace_outcome. unfold_step. cbn.
  case_parse; reflexivity.
Qed.

Lemma NextConnect_processRequestBody_outcome schema req :
  run (NextConnect.processRequestBody schema) req = body_replace_outcome schema req.
Proof.
  destruct req as [p q b]. unfold body_replace_outcome. unfold_step. cbn.
  case_parse; reflexivity.
Qed.

(** X9. [processRequestBody] runs the schema on the body section; when the
    schema accepts, the body section becomes the coerced output and nothing
    of the old body is kept, params and query stay as they were and the
    continuation is called; when it rejects, the request stays as it was and
    a 400 envelope with the single entry labelled [Body] is written. *)
Theorem processRequestBody_replaces_body (schema : ZodSchema) (req : NextApiRequest) :
  run (Index.processRequestBody schema) req = body_replace_outcome schema req
  ∧ run (NextConnect.processRequestBody schema) req = body_replace_outcome schema req.
Proof.
  split.
  - apply Index_processRequestBody_outcome.
  - apply NextConnect_processRequestBody_outcome.
Qed.

(** *** Aggregate processing as a sequence of steps *)

(** X8. With a query schema and a body schema and no params schema, the
    request that [processRequest] leaves is the one left by the query step
    followed by the body step, and also by the body step followed by the
    query step: the two sections are processed independently, whatever each
    schema answers. *)
Theorem processRequest_is_query_then_body (qs bs : ZodSchema) (req : NextApiRequest) :
  (run (NextConnect.processRequest
          {| NextConnect.RequestValidation.query := Some qs;
             NextConnect.RequestValidation.body := Some bs |}) req).1
  = (run (NextConnect.processRequestBody bs)
       (run (NextConnect.processRequestQuery qs) req).1).1
  ∧ (run (NextConnect.processRequestBody bs)
       (run (NextConnect.processRequestQuery qs) req).1).1
    = (run (NextConnect.processRequestQuery qs)
         (run (NextConnect.processRequestBody bs) req).1).1
  ∧ (run (Index.processRequest
            {| Index.RequestValidation.params := None;
               Index.RequestValidation.query := Some qs;
               Index.RequestValidation.body := Some bs |}) req).1
    = (run (Index.processRequestBody bs)
         (run (Index.processRequestQuery qs) req).1).1
  ∧ (run (Index.processRequestBody bs)
       (run (Index.processRequestQuery qs) req).1).1
    = (run (Index.processRequestQuery qs)
         (run (Index.processRequestBody bs) req).1).1.
Proof.
  rewrite NextConnect_processRequest_request, Index_processRequest_request.
  rewrite ?NextConnect_processRequestBody_outcome, ?Index_processRequestBody_outcome,
    ?NextConnect_processRequestQuery_outcome, ?Index_processRequestQuery_outcome.
  destruct req as [p q b].
  unfold body_replace_outcome, query_overlay_outcome. cbn.
  destruct (safeParse qs q) eqn:Hq; cbn; destruct (safeParse bs b) eqn:Hb; cbn;
    rewrite ?Hq, ?Hb; cbn; rewrite ?Hq, ?Hb; repeat apply conj; reflexivity.
Qed.

(** *** The overlay of the coerced output onto the query section *)

Lemma lookup_spread (a b : value) (key : string) :
  own_props (spread a b) !! key
  = match own_props b !! key with
    | Some v => Some v
    | None => own_props a !! key
    end.
Proof.
  cbn. destruct (own_props b !! key) as [v|] eqn:Hb.
  - by apply lookup_union_Some_l.
  - by rewrite lookup_union_r.
Qed.

Lemma spread_again (a b : value) : spread (spread a b) b = spread a b.
Proof.
  unfold spread. cbn. f_equal.
  by rewrite (assoc_L (∪)), (idemp_L (∪)).
Qed.

(** X10. After a query (or params) processing step whose schema accepted,
    each property of the query section holds the value given by the coerced
    output when the output has that property, and the value it had before
    otherwise. *)
Theorem processed_query_lookup (schema : ZodSchema) (req : NextApiRequest)
    (data : value) (key : string) :
  safeParse schema (query req) = SafeParseSuccess data →
  let merged :=
    match own_props data !! key with
    | Some v => Some v
    | None => own_props (query req) !! key
    end in
  own_props (query (run (Index.processRequestQuery schema) req).1) !! key = merged
  ∧ own_props (query (run (Index.processRequestParams schema) req).1) !! key = merged
  ∧ own_props (query (run (NextConnect.processRequestQuery schema) req).1) !! key = merged.
Proof.
  intros Hparse merged. subst merged.
  rewrite Index_processRequestQuery_outcome, Index_processRequestParams_outcome,
    NextConnect_processRequestQuery_outcome.
  unfold query_overlay_outcome. rewrite Hparse. cbn [fst query].
  by rewrite lookup_spread.
Qed.

Lemma processed_query_lookup_witness :
  own_props (query (run (Index.processRequestQuery (Samples.constant Samples.bc))
                      Samples.ab_request).1) !! "a"%string = Some (VNum 1)
  ∧ own_props (query (run (Index.processRequestQuery (Samples.constant Samples.bc))
                        Samples.ab_request).1) !! "b"%string = Some (VNum 3).
Proof.
  split.
  - exact (proj1 (processed_query_lookup (Samples.constant Samples.bc)
                    Samples.ab_request Samples.bc "a" eq_refl)).
  - exact (proj1 (processed_query_lookup (Samples.constant Samples.bc)
                    Samples.ab_request Samples.bc "b" eq_refl)).
Defined.

(** X11. No step removes a property from the query section: a key the query
    had before the step is still there afterwards, also when the accepting
    schema left it out of its output. *)
Theorem no_step_removes_query_key (entry : EntryPoint) (req : NextApiRequest)
    (key : string) :
  is_Some (own_props (query req) !! key) →
  is_Some (own_props (query (run (step_of entry) req).1) !! key).
Proof.
  intros Hkey. destruct_entry entry; unfold_step; cbn; case_parse;
    repeat (apply lookup_union_is_Some; right); exact Hkey.
Qed.

Lemma no_step_removes_query_key_witness :
  is_Some (own_props
             (query (run (Index.processRequestQuery Samples.name_schema)
                       {| params := VUndefined;
                          query := Samples.obj [("name"%string, VStr "n");
                                                ("page"%string, VStr "2")];
                          body := VNull |}).1) !! "page"%string).
Proof.
  apply (no_step_removes_query_key (Index_processRequestQuery Samples.name_schema)).
  vm_compute. eexists. reflexivity.
Defined.

(** X12. When the schema accepts the query section and accepts the overlaid
    query section with the same output, a second run of the query processing
    step, on the request as the first run left it, advances again and leaves
    the request as the first run left it. *)
Theorem processRequestQuery_stable_rerun (schema : ZodSchema) (req : NextApiRequest)
    (data : value) :
  safeParse schema (query req) = SafeParseSuccess data →
  safeParse schema (spread (query req) data) = SafeParseSuccess data →
  (run (Index.processRequestQuery schema)
     (run (Index.processRequestQuery schema) req).1).1
  = (run (Index.processRequestQuery schema) req).1
  ∧ admits (Index.processRequestQuery schema)
      (run (Index.processRequestQuery schema) req).1
  ∧ (run (NextConnect.processRequestQuery schema)
       (run (NextConnect.processRequestQuery schema) req).1).1
    = (run (NextConnect.processRequestQuery schema) req).1
  ∧ admits (NextConnect.processRequestQuery schema)
      (run (NextConnect.processRequestQuery schema) req).1.
Proof.
  intros Hfirst Hsecond. unfold admits.
  rewrite ?Index_processRequestQuery_outcome, ?NextConnect_processRequestQuery_outcome.
  unfold query_overlay_outcome. rewrite Hfirst. cbn. rewrite Hsecond. cbn.
  by rewrite spread_again.
Qed.

Lemma processRequestQuery_stable_rerun_witness :
  (run (Index.processRequestQuery (Samples.constant Samples.bc))
     (run (Index.processRequestQuery (Samples.constant Samples.bc))
        Samples.ab_request).1).1
  = (run (Index.processRequestQuery (Samples.constant Samples.bc)) Samples.ab_request).1.
Proof.
  exact (proj1 (processRequestQuery_stable_rerun (Samples.constant Samples.bc)
                  Samples.ab_request Samples.bc eq_refl eq_refl)).
Defined.

(** X13. In [processRequest] of [index.ts] with a params schema and a query
    schema that both accept, a property of the query section ends up with the
    value from the query output if it has one, else the value from the params
    output if it has one, else the value it had before. *)
Theorem query_output_wins_over_params_output (ps qs : ZodSchema)
    (bs : option ZodSchema) (req : NextApiRequest) (pdata qdata : value)
    (key : string) :
  safeParse ps (params req) = SafeParseSuccess pdata →
  safeParse qs (spread (query req) pdata) = SafeParseSuccess qdata →
  own_props
    (query (run (Index.processRequest
                   {| Index.RequestValidation.params := Some ps;
                      Index.RequestValidation.query := Some qs;
                      Index.RequestValidation.body := bs |}) req).1) !! key
  = match own_props qdata !! key with
    | Some v => Some v
    | None =>
        match own_props pdata !! key with
        | Some v => Some v
        | None => own_props (query req) !! key
        end
    end.
Proof.
  intros Hparams Hquery.
  rewrite Index_processRequest_request. cbn. rewrite Hparams, Hquery.
  by rewrite !lookup_spread.
Qed.

Lemma query_output_wins_over_params_output_witness :
  own_props
    (query (run (Index.processRequest
                   {| Index.RequestValidation.params := Some Samples.id_schema;
                      Index.RequestValidation.query := Some (Samples.constant Samples.bc);
                      Index.RequestValidation.body := None |})
              Samples.route_request).1) !! "id"%string
  = Some (VNum 7).
Proof.
  exact (query_output_wins_over_params_output Samples.id_schema
           (Samples.constant Samples.bc) None Samples.route_request
           (Samples.obj [("id"%string, VNum 7)]) Samples.bc "id" eq_refl eq_refl).
Defined.

(** *** Admission by the aggregate steps *)

(** X15. [validateRequest] admits a request exactly when the validation step
    of each of its sections admits it; so does [processRequest] of the
    two-section file with respect to its two processing steps. *)
Theorem aggregate_admits_iff_sections_admit (ps qs bs : ZodSchema) (req : NextApiRequest) :
  (admits (Index.validateRequest
             {| Index.RequestValidation.params := Some ps;
                Index.RequestValidation.query := Some qs;
                Index.RequestValidation.body := Some bs |}) req
   ↔ admits (Index.validateRequestParams ps) req
     ∧ admits (Index.validateRequestQuery qs) req
     ∧ admits (Index.validateRequestBody bs) req)
  ∧ (admits (NextConnect.validateRequest
               {| NextConnect.RequestValidation.query := Some qs;
                  NextConnect.RequestValidation.body := Some bs |}) req
     ↔ admits (NextConnect.validateRequestQuery qs) req
       ∧ admits (NextConnect.validateRequestBody bs) req)
  ∧ (admits (NextConnect.processRequest
               {| NextConnect.RequestValidation.query := Some qs;
                  NextConnect.RequestValidation.body := Some bs |}) req
     ↔ admits (NextConnect.processRequestQuery qs) req
       ∧ admits (NextConnect.processRequestBody bs) req).
Proof.
  unfold admits. unfold_step. cbn. case_parse; cbn; intuition discriminate.
Qed.

(** *** The two files *)

(** X16. For the functions the two files share, and [processRequest] and
    [validateRequest] of [index.ts] taken without a params schema, the two
    files process a request alike: the same request afterwards, the same
    schema calls on the same inputs, and the continuation called in the same
    cases. *)
Theorem files_process_alike (schema : ZodSchema)
    (schemas : NextConnect.RequestValidation.t) (req : NextApiRequest) :
  process_alike (NextConnect.processRequestBody schema)
    (Index.processRequestBody schema) req
  ∧ process_alike (NextConnect.processRequestQuery schema)
      (Index.processRequestQuery schema) req
  ∧ process_alike (NextConnect.validateRequestBody schema)
      (Index.validateRequestBody schema) req
  ∧ process_alike (NextConnect.validateRequestQuery schema)
      (Index.validateRequestQuery schema) req
  ∧ process_alike (NextConnect.processRequest schemas)
      (Index.processRequest (without_params schemas)) req
  ∧ process_alike (NextConnect.validateRequest schemas)
      (Index.validateRequest (without_params schemas)) req.
Proof.
  unfold process_alike, without_params.
  destruct schemas as [[qs|] [bs|]];
    repeat apply conj; unfold_step; cbn; case_parse; reflexivity.
Qed.
